(** * vmSlice: the debugger's state mirror (src/store/vmSlice.ts)

    The slice is a Redux reducer map plus a handful of selectors.  Every
    reducer builds a fresh state with object spread, so the embedding is
    purely functional: a record for [VMSliceState], one Rocq function per
    case reducer and per selector, and a completion type for the two places
    where the TypeScript reads a property of a possibly-undefined value.

    JavaScript objects used as dictionaries ([Record<K, V>]) are finite maps
    over property keys, which are strings; a numeric key reaches the object
    through the language's number-to-string conversion, written
    [ToPropertyKey] below.  Numbers are the integers (cast, member, channel
    and frame numbers are), optional fields are [option]s, and two states
    are equal when they hold the same data: object identity is not
    modelled. *)

From stdpp Require Import gmap strings list fin_maps pretty.
From Stdlib Require Import ZArith.

#[local] Set Warnings "-register-all".
#[local] Open Scope Z_scope.

(** ** JavaScript runtime notions the slice relies on *)

Module Js.

(** Values whose TypeScript declarations live outside this file
    ([../vm], [dirplayer-js-api]).  [undefined] is not a constructor: a
    possibly-undefined value is an [option]. *)
Inductive JsValue : Type :=
  | JsNull
  | JsBoolean (b : bool)
  | JsNumber (n : Z)
  | JsString (s : string)
  | JsObject (props : gmap string JsValue).

Inductive JsError : Type := TypeError.

(** Outcome of evaluating an expression: a value or a thrown error. *)
Inductive Completion (A : Type) : Type :=
  | Normal (a : A)
  | Throw (e : JsError).
Arguments Normal {A} a.
Arguments Throw {A} e.

Definition bind {A B} (c : Completion A) (k : A → Completion B) : Completion B :=
  match c with
  | Normal a => k a
  | Throw e => Throw e
  end.

(** Numbers used as property keys are converted to their decimal string
    ([obj[1]] and [obj["1"]] name the same property). *)
Definition ToPropertyKey (n : Z) : string := pretty n.

(** The base of a property read [base.prop]: reading a property of
    [undefined] throws a TypeError, otherwise the read goes on with the
    object. *)
Definition require_object {A} (base : option A) : Completion A :=
  match base with
  | Some o => Normal o
  | None => Throw TypeError
  end.

(** [base?.prop]: optional chaining short-circuits to undefined. *)
Definition optional_access {A B} (base : option A) (prop : A → option B) : option B :=
  match base with
  | Some o => prop o
  | None => None
  end.

(** [xs.at(k)]: a negative index counts from the end; out of range is
    undefined. *)
Definition array_at {A} (xs : list A) (k : Z) : option A :=
  let i := if k <? 0 then Z.of_nat (length xs) + k else k in
  if i <? 0 then None else xs !! Z.to_nat i.

(** [{...o}] where [o] may be undefined: spreading undefined adds nothing. *)
Definition spread {V} (o : option (gmap string V)) : gmap string V :=
  match o with
  | Some props => props
  | None => ∅
  end.

(** [!s] for an optional string parameter: undefined and the empty string
    are the falsy strings. *)
Definition not_truthy (s : option string) : bool :=
  match s with
  | None => true
  | Some v => String.eqb v ""
  end.

(** [a === b] where [a] is a string and [b] an optional string. *)
Definition strict_eq (a : string) (b : option string) : bool :=
  match b with
  | Some v => String.eqb a v
  | None => false
  end.

End Js.
Import Js.

(** Sequencing of completions, so that [x ← c; k] reads as "evaluate [c],
    and go on with its value unless it threw". *)
#[global] Instance Completion_ret : MRet Completion := λ A a, Normal a.
#[global] Instance Completion_bind : MBind Completion := λ A B k c, Js.bind c k.

(** ** Data model *)

(** Object types declared in [../vm]; their fields are not visible from the
    slice, which only copies them around. *)
Abbreviation JsObj := (gmap string JsValue).
Abbreviation MemberSnapshot := (gmap string JsValue).
Abbreviation ScoreSpriteSnapshot := (gmap string JsValue).
Abbreviation ScoreSnapshot := JsValue.
Abbreviation IVMScope := JsValue.
Abbreviation JsBridgeDatum := JsValue.
Abbreviation Timer := JsValue.
Abbreviation DatumRef := Z.
Abbreviation ScriptInstanceId := Z.

(** [ICastMemberIdentifier], as [selectMemberSnapshotById] reads it. *)
Record ICastMemberIdentifier : Type := {
  castNumber : Z;
  memberNumber : Z;
}.

(** [ICastMemberRef] is the pair [[castLib, castMember]]. *)
Abbreviation ICastMemberRef := (Z * Z)%type.

(** [CastSnapshot], as [castMemberListChanged] builds it. *)
Record CastSnapshot : Type := {
  number : Z;
  members : gmap string MemberSnapshot;
}.

(** [JsBridgeBreakpoint]: the slice reads [script_name] only. *)
Record JsBridgeBreakpoint : Type := {
  script_name : string;
  other_props : JsObj;
}.

Record TMemberSubscription : Type := {
  memberRef : ICastMemberIdentifier;
  id : string;
}.

Record VMSliceState : Type := {
  castNames : list string;
  castSnapshots : gmap string CastSnapshot;
  scoreSnapshot : option ScoreSnapshot;
  currentFrame : Z;
  scopes : list IVMScope;
  scriptError : option string;
  breakpoints : list JsBridgeBreakpoint;
  globals : gmap string DatumRef;
  timeoutHandles : gmap string Timer;
  datumSnapshots : gmap string JsBridgeDatum;
  scriptInstanceSnapshots : gmap string JsBridgeDatum;
  channelSnapshots : gmap string ScoreSpriteSnapshot;
  subscribedMemberTokens : list TMemberSubscription;
  isMovieLoaded : bool;
}.

Definition initialState : VMSliceState := {|
  castNames := [];
  castSnapshots := ∅;
  scoreSnapshot := None;
  currentFrame := 1;
  scopes := [];
  scriptError := None;
  breakpoints := [];
  globals := ∅;
  timeoutHandles := ∅;
  datumSnapshots := ∅;
  scriptInstanceSnapshots := ∅;
  channelSnapshots := ∅;
  subscribedMemberTokens := [];
  isMovieLoaded := false;
|}.

Record CastMemberListChangedPayload : Type := {
  cmlc_castNumber : Z;
  cmlc_members : gmap string MemberSnapshot;
}.

(** ** [{...state, field: value}]

    One updater per field: the spread copies every field of [state] and the
    named one is overwritten. *)

Section Spread.
Variable state : VMSliceState.

Definition with_castNames (v : list string) : VMSliceState :=
  {| castNames := v; castSnapshots := castSnapshots state;
     scoreSnapshot := scoreSnapshot state; currentFrame := currentFrame state;
     scopes := scopes state; scriptError := scriptError state;
     breakpoints := breakpoints state; globals := globals state;
     timeoutHandles := timeoutHandles state; datumSnapshots := datumSnapshots state;
     scriptInstanceSnapshots := scriptInstanceSnapshots state;
     channelSnapshots := channelSnapshots state;
     subscribedMemberTokens := subscribedMemberTokens state;
     isMovieLoaded := isMovieLoaded state |}.

Definition with_castSnapshots (v : gmap string CastSnapshot) : VMSliceState :=
  {| castNames := castNames state; castSnapshots := v;
     scoreSnapshot := scoreSnapshot state; currentFrame := currentFrame state;
     scopes := scopes state; scriptError := scriptError state;
     breakpoints := breakpoints state; globals := globals state;
     timeoutHandles := timeoutHandles state; datumSnapshots := datumSnapshots state;
     scriptInstanceSnapshots := scriptInstanceSnapshots state;
     channelSnapshots := channelSnapshots state;
     subscribedMemberTokens := subscribedMemberTokens state;
     isMovieLoaded := isMovieLoaded state |}.

Definition with_scoreSnapshot (v : option ScoreSnapshot) : VMSliceState :=
  {| castNames := castNames state; castSnapshots := castSnapshots state;
     scoreSnapshot := v; currentFrame := currentFrame state;
     scopes := scopes state; scriptError := scriptError state;
     breakpoints := breakpoints state; globals := globals state;
     timeoutHandles := timeoutHandles state; datumSnapshots := datumSnapshots state;
     scriptInstanceSnapshots := scriptInstanceSnapshots state;
     channelSnapshots := channelSnapshots state;
     subscribedMemberTokens := subscribedMemberTokens state;
     isMovieLoaded := isMovieLoaded state |}.

Definition with_currentFrame (v : Z) : VMSliceState :=
  {| castNames := castNames state; castSnapshots := castSnapshots state;
     scoreSnapshot := scoreSnapshot state; currentFrame := v;
     scopes := scopes state; scriptError := scriptError state;
     breakpoints := breakpoints state; globals := globals state;
     timeoutHandles := timeoutHandles state; datumSnapshots := datumSnapshots state;
     scriptInstanceSnapshots := scriptInstanceSnapshots state;
     channelSnapshots := channelSnapshots state;
     subscribedMemberTokens := subscribedMemberTokens state;
     isMovieLoaded := isMovieLoaded state |}.

Definition with_scopes (v : list IVMScope) : VMSliceState :=
  {| castNames := castNames state; castSnapshots := castSnapshots state;
     scoreSnapshot := scoreSnapshot state; currentFrame := currentFrame state;
     scopes := v; scriptError := scriptError state;
     breakpoints := breakpoints state; globals := globals state;
     timeoutHandles := timeoutHandles state; datumSnapshots := datumSnapshots state;
     scriptInstanceSnapshots := scriptInstanceSnapshots state;
     channelSnapshots := channelSnapshots state;
     subscribedMemberTokens := subscribedMemberTokens state;
     isMovieLoaded := isMovieLoaded state |}.

Definition with_scriptError (v : option string) : VMSliceState :=
  {| castNames := castNames state; castSnapshots := castSnapshots state;
     scoreSnapshot := scoreSnapshot state; currentFrame := currentFrame state;
     scopes := scopes state; scriptError := v;
     breakpoints := breakpoints state; globals := globals state;
     timeoutHandles := timeoutHandles state; datumSnapshots := datumSnapshots state;
     scriptInstanceSnapshots := scriptInstanceSnapshots state;
     channelSnapshots := channelSnapshots state;
     subscribedMemberTokens := subscribedMemberTokens state;
     isMovieLoaded := isMovieLoaded state |}.

Definition with_breakpoints (v : list JsBridgeBreakpoint) : VMSliceState :=
  {| castNames := castNames state; castSnapshots := castSnapshots state;
     scoreSnapshot := scoreSnapshot state; currentFrame := currentFrame state;
     scopes := scopes state; scriptError := scriptError state;
     breakpoints := v; globals := globals state;
     timeoutHandles := timeoutHandles state; datumSnapshots := datumSnapshots state;
     scriptInstanceSnapshots := scriptInstanceSnapshots state;
     channelSnapshots := channelSnapshots state;
     subscribedMemberTokens := subscribedMemberTokens state;
     isMovieLoaded := isMovieLoaded state |}.

Definition with_globals (v : gmap string DatumRef) : VMSliceState :=
  {| castNames := castNames state; castSnapshots := castSnapshots state;
     scoreSnapshot := scoreSnapshot state; currentFrame := currentFrame state;
     scopes := scopes state; scriptError := scriptError state;
     breakpoints := breakpoints state; globals := v;
     timeoutHandles := timeoutHandles state; datumSnapshots := datumSnapshots state;
     scriptInstanceSnapshots := scriptInstanceSnapshots state;
     channelSnapshots := channelSnapshots state;
     subscribedMemberTokens := subscribedMemberTokens state;
     isMovieLoaded := isMovieLoaded state |}.

Definition with_timeoutHandles (v : gmap string Timer) : VMSliceState :=
  {| castNames := castNames state; castSnapshots := castSnapshots state;
     scoreSnapshot := scoreSnapshot state; currentFrame := currentFrame state;
     scopes := scopes state; scriptError := scriptError state;
     breakpoints := breakpoints state; globals := globals state;
     timeoutHandles := v; datumSnapshots := datumSnapshots state;
     scriptInstanceSnapshots := scriptInstanceSnapshots state;
     channelSnapshots := channelSnapshots state;
     subscribedMemberTokens := subscribedMemberTokens state;
     isMovieLoaded := isMovieLoaded state |}.

Definition with_datumSnapshots (v : gmap string JsBridgeDatum) : VMSliceState :=
  {| castNames := castNames state; castSnapshots := castSnapshots state;
     scoreSnapshot := scoreSnapshot state; currentFrame := currentFrame state;
     scopes := scopes state; scriptError := scriptError state;
     breakpoints := breakpoints state; globals := globals state;
     timeoutHandles := timeoutHandles state; datumSnapshots := v;
     scriptInstanceSnapshots := scriptInstanceSnapshots state;
     channelSnapshots := channelSnapshots state;
     subscribedMemberTokens := subscribedMemberTokens state;
     isMovieLoaded := isMovieLoaded state |}.

Definition with_scriptInstanceSnapshots (v : gmap string JsBridgeDatum) : VMSliceState :=
  {| castNames := castNames state; castSnapshots := castSnapshots state;
     scoreSnapshot := scoreSnapshot state; currentFrame := currentFrame state;
     scopes := scopes state; scriptError := scriptError state;
     breakpoints := breakpoints state; globals := globals state;
     timeoutHandles := timeoutHandles state; datumSnapshots := datumSnapshots state;
     scriptInstanceSnapshots := v;
     channelSnapshots := channelSnapshots state;
     subscribedMemberTokens := subscribedMemberTokens state;
     isMovieLoaded := isMovieLoaded state |}.

Definition with_channelSnapshots (v : gmap string ScoreSpriteSnapshot) : VMSliceState :=
  {| castNames := castNames state; castSnapshots := castSnapshots state;
     scoreSnapshot := scoreSnapshot state; currentFrame := currentFrame state;
     scopes := scopes state; scriptError := scriptError state;
     breakpoints := breakpoints state; globals := globals state;
     timeoutHandles := timeoutHandles state; datumSnapshots := datumSnapshots state;
     scriptInstanceSnapshots := scriptInstanceSnapshots state;
     channelSnapshots := v;
     subscribedMemberTokens := subscribedMemberTokens state;
     isMovieLoaded := isMovieLoaded state |}.

Definition with_subscribedMemberTokens (v : list TMemberSubscription) : VMSliceState :=
  {| castNames := castNames state; castSnapshots := castSnapshots state;
     scoreSnapshot := scoreSnapshot state; currentFrame := currentFrame state;
     scopes := scopes state; scriptError := scriptError state;
     breakpoints := breakpoints state; globals := globals state;
     timeoutHandles := timeoutHandles state; datumSnapshots := datumSnapshots state;
     scriptInstanceSnapshots := scriptInstanceSnapshots state;
     channelSnapshots := channelSnapshots state;
     subscribedMemberTokens := v;
     isMovieLoaded := isMovieLoaded state |}.

Definition with_isMovieLoaded (v : bool) : VMSliceState :=
  {| castNames := castNames state; castSnapshots := castSnapshots state;
     scoreSnapshot := scoreSnapshot state; currentFrame := currentFrame state;
     scopes := scopes state; scriptError := scriptError state;
     breakpoints := breakpoints state; globals := globals state;
     timeoutHandles := timeoutHandles state; datumSnapshots := datumSnapshots state;
     scriptInstanceSnapshots := scriptInstanceSnapshots state;
     channelSnapshots := channelSnapshots state;
     subscribedMemberTokens := subscribedMemberTokens state;
     isMovieLoaded := v |}.
End Spread.

(** ** Case reducers *)

Record CastMemberChangedPayload : Type := {
  cmc_memberRef : ICastMemberRef;
  cmc_snapshot : MemberSnapshot;
}.

Definition castListChanged (state : VMSliceState) (payload : list string) : VMSliceState :=
  with_castNames state payload.

Definition castMemberListChanged (state : VMSliceState)
    (payload : CastMemberListChangedPayload) : VMSliceState :=
  with_castSnapshots state
    (<[ToPropertyKey (cmlc_castNumber payload) :=
         {| number := cmlc_castNumber payload; members := cmlc_members payload |}]>
       (castSnapshots state)).

(** The object literal is evaluated left to right.  Spreading
    [state.castSnapshots[castLibNum]] is harmless when that is undefined, but
    the next property, [state.castSnapshots[castLibNum].members], reads a
    property of it: with no such library the reducer throws and returns no
    state.  With the library there, [members[memberNum]] may still be
    undefined; it is only spread, so the entry is then built from the
    [snapshot] property alone. *)
Definition castMemberChanged (state : VMSliceState)
    (payload : CastMemberChangedPayload) : Completion VMSliceState :=
  let castLibNum := (cmc_memberRef payload).1 in
  let memberNum := (cmc_memberRef payload).2 in
  cast ← require_object (castSnapshots state !! ToPropertyKey castLibNum);
  mret (with_castSnapshots state
    (<[ToPropertyKey castLibNum :=
         {| number := number cast;
            members :=
              <[ToPropertyKey memberNum :=
                  <["snapshot" := JsObject (cmc_snapshot payload)]>
                    (spread (members cast !! ToPropertyKey memberNum))]>
                (members cast) |}]>
       (castSnapshots state))).

Definition scoreChanged (state : VMSliceState) (payload : ScoreSnapshot) : VMSliceState :=
  with_scoreSnapshot state (Some payload).

Definition frameChanged (state : VMSliceState) (payload : Z) : VMSliceState :=
  with_currentFrame state payload.

Definition scopeListChanged (state : VMSliceState) (payload : list IVMScope) : VMSliceState :=
  with_datumSnapshots (with_scopes state payload) ∅.

Definition onScriptError (state : VMSliceState) (payload : string) : VMSliceState :=
  with_scriptError state (Some payload).

Definition scriptErrorCleared (state : VMSliceState) : VMSliceState :=
  with_scriptError state None.

Definition breakpointListChanged (state : VMSliceState)
    (payload : list JsBridgeBreakpoint) : VMSliceState :=
  with_breakpoints state payload.

Definition globalsChanged (state : VMSliceState) (payload : gmap string DatumRef) : VMSliceState :=
  with_globals state payload.

Definition setTimeoutHandle (state : VMSliceState) (name : string) (handle : Timer) : VMSliceState :=
  with_timeoutHandles state (<[name := handle]> (timeoutHandles state)).

Definition removeTimeoutHandle (state : VMSliceState) (payload : string) : VMSliceState :=
  let newHandles := delete payload (timeoutHandles state) in
  with_timeoutHandles state newHandles.

Definition datumSnapshot (state : VMSliceState) (datumRef : DatumRef)
    (datum : JsBridgeDatum) : VMSliceState :=
  with_datumSnapshots state (<[ToPropertyKey datumRef := datum]> (datumSnapshots state)).

Definition scriptInstanceSnapshot (state : VMSliceState) (scriptInstanceId : ScriptInstanceId)
    (datum : JsBridgeDatum) : VMSliceState :=
  with_scriptInstanceSnapshots state
    (<[ToPropertyKey scriptInstanceId := datum]> (scriptInstanceSnapshots state)).

Definition channelChanged (state : VMSliceState) (channelNumber : Z)
    (channelData : ScoreSpriteSnapshot) : VMSliceState :=
  with_channelSnapshots state
    (<[ToPropertyKey channelNumber := channelData]> (channelSnapshots state)).

Definition channelDisplayNameChanged (state : VMSliceState) (channelNumber : Z)
    (displayName : string) : VMSliceState :=
  with_channelSnapshots state
    (<[ToPropertyKey channelNumber :=
         <["displayName" := JsString displayName]>
           (spread (channelSnapshots state !! ToPropertyKey channelNumber))]>
       (channelSnapshots state)).

Definition memberSubscribed (state : VMSliceState) (payload : TMemberSubscription) : VMSliceState :=
  with_subscribedMemberTokens state (subscribedMemberTokens state ++ [payload]).

Definition memberUnsubscribed (state : VMSliceState) (payload : string) : VMSliceState :=
  with_subscribedMemberTokens state
    (List.filter (λ t, negb (String.eqb (id t) payload)) (subscribedMemberTokens state)).

Definition movieLoaded (state : VMSliceState) : VMSliceState :=
  with_isMovieLoaded state true.

(** The actions of the slice, one per case reducer, and the slice reducer
    that dispatches on them. *)
Inductive Action : Type :=
  | CastListChanged (payload : list string)
  | CastMemberListChanged (payload : CastMemberListChangedPayload)
  | CastMemberChanged (payload : CastMemberChangedPayload)
  | ScoreChanged (payload : ScoreSnapshot)
  | FrameChanged (payload : Z)
  | ScopeListChanged (payload : list IVMScope)
  | OnScriptError (payload : string)
  | ScriptErrorCleared
  | BreakpointListChanged (payload : list JsBridgeBreakpoint)
  | GlobalsChanged (payload : gmap string DatumRef)
  | SetTimeoutHandle (name : string) (handle : Timer)
  | RemoveTimeoutHandle (payload : string)
  | DatumSnapshot (datumRef : DatumRef) (datum : JsBridgeDatum)
  | ScriptInstanceSnapshot (scriptInstanceId : ScriptInstanceId) (datum : JsBridgeDatum)
  | ChannelChanged (channelNumber : Z) (channelData : ScoreSpriteSnapshot)
  | ChannelDisplayNameChanged (channelNumber : Z) (displayName : string)
  | MemberSubscribed (payload : TMemberSubscription)
  | MemberUnsubscribed (payload : string)
  | MovieLoaded.

Definition reducer (state : VMSliceState) (action : Action) : Completion VMSliceState :=
  match action with
  | CastListChanged p => Normal (castListChanged state p)
  | CastMemberListChanged p => Normal (castMemberListChanged state p)
  | CastMemberChanged p => castMemberChanged state p
  | ScoreChanged p => Normal (scoreChanged state p)
  | FrameChanged p => Normal (frameChanged state p)
  | ScopeListChanged p => Normal (scopeListChanged state p)
  | OnScriptError p => Normal (onScriptError state p)
  | ScriptErrorCleared => Normal (scriptErrorCleared state)
  | BreakpointListChanged p => Normal (breakpointListChanged state p)
  | GlobalsChanged p => Normal (globalsChanged state p)
  | SetTimeoutHandle n h => Normal (setTimeoutHandle state n h)
  | RemoveTimeoutHandle p => Normal (removeTimeoutHandle state p)
  | DatumSnapshot r d => Normal (datumSnapshot state r d)
  | ScriptInstanceSnapshot i d => Normal (scriptInstanceSnapshot state i d)
  | ChannelChanged n d => Normal (channelChanged state n d)
  | ChannelDisplayNameChanged n d => Normal (channelDisplayNameChanged state n d)
  | MemberSubscribed p => Normal (memberSubscribed state p)
  | MemberUnsubscribed p => Normal (memberUnsubscribed state p)
  | MovieLoaded => Normal (movieLoaded state)
  end.

(** ** Selectors *)

Definition selectCastSnapshot (state : VMSliceState) (number : Z) : option CastSnapshot :=
  castSnapshots state !! ToPropertyKey number.

(** [selectCastSnapshot(state, castNumber).members[String(memberNumber)]?.snapshot]:
    the cast snapshot is read with a plain [.members], the member entry with
    [?.snapshot].  [String(n)] is the conversion [ToPropertyKey] applies. *)
Definition selectMemberSnapshot (state : VMSliceState) (castNumber memberNumber : Z)
    : Completion (option JsValue) :=
  cast ← require_object (selectCastSnapshot state castNumber);
  mret (optional_access (members cast !! ToPropertyKey memberNumber)
                        (λ entry, entry !! "snapshot")).

Definition selectMemberSnapshotById (state : VMSliceState) (id : ICastMemberIdentifier)
    : Completion (option JsValue) :=
  selectMemberSnapshot state (castNumber id) (memberNumber id).

Definition selectScoreSnapshot (state : VMSliceState) : option ScoreSnapshot :=
  scoreSnapshot state.

Definition selectCurrentFrame (state : VMSliceState) : Z := currentFrame state.

Definition selectScopes (state : VMSliceState) : list IVMScope := scopes state.

Definition selectCurrentScope (state : VMSliceState) : option IVMScope :=
  array_at (scopes state) (Z.of_nat (length (scopes state)) - 1).

Definition selectScriptError (state : VMSliceState) : option string := scriptError state.

Definition selectBreakpoints (state : VMSliceState) (scriptName : option string)
    : list JsBridgeBreakpoint :=
  List.filter (λ b, not_truthy scriptName || strict_eq (script_name b) scriptName)
              (breakpoints state).

Definition selectGlobals (state : VMSliceState) : gmap string DatumRef := globals state.

(** ** Notions the properties are phrased with *)

(** The member entry stored under a (library, member-number) pair, if both
    the library and the entry are there. *)
Definition member_entry (state : VMSliceState) (castLib memberNum : Z) : option MemberSnapshot :=
  cast ← castSnapshots state !! ToPropertyKey castLib;
  members cast !! ToPropertyKey memberNum.

(** Subscription ledger: a member is of interest when some subscription
    record references it. *)
Definition of_interest (state : VMSliceState) (member : ICastMemberIdentifier) : Prop :=
  ∃ t, t ∈ subscribedMemberTokens state ∧ memberRef t = member.

(** Breakpoints for a script, read off the specification: the breakpoints
    whose script name is [name], in list order. *)
Definition breakpoints_for_script_spec (bps : list JsBridgeBreakpoint) (name : string)
    : list JsBridgeBreakpoint :=
  filter (λ b, script_name b = name) bps.

(** The state after subscribing [member] under [a] and then under [b]. *)
Definition subscribed_twice (state : VMSliceState) (member : ICastMemberIdentifier)
    (a b : string) : VMSliceState :=
  memberSubscribed
    (memberSubscribed state {| memberRef := member; id := a |})
    {| memberRef := member; id := b |}.

(** Applying a list of events, first to last; the run stops at the first
    event whose reducer throws. *)
Fixpoint reduce_all (state : VMSliceState) (actions : list Action) : Completion VMSliceState :=
  match actions with
  | [] => Normal state
  | action :: rest => state' ← reducer state action; reduce_all state' rest
  end.

(** ** States and events used as examples *)

Definition two_libraries : VMSliceState :=
  castMemberListChanged
    (castMemberListChanged initialState
       {| cmlc_castNumber := 1;
          cmlc_members := {[ ToPropertyKey 4 := {[ "name" := JsString "ball" ]} ]} |})
    {| cmlc_castNumber := 2; cmlc_members := ∅ |}.

Definition one_channel : VMSliceState :=
  channelChanged initialState 3
    {[ "a" := JsNumber 1; "b" := JsNumber 2; "displayName" := JsString "old" ]}.

Definition one_timer_one_token : VMSliceState :=
  memberSubscribed
    (setTimeoutHandle initialState "tick" (JsNumber 17))
    {| memberRef := {| castNumber := 1; memberNumber := 4 |}; id := "a" |}.

Definition bp (name : string) : JsBridgeBreakpoint :=
  {| script_name := name; other_props := ∅ |}.

Definition three_breakpoints : VMSliceState :=
  breakpointListChanged initialState [bp "foo"; bp "bar"; bp "foo"].

Definition ball : ICastMemberIdentifier := {| castNumber := 1; memberNumber := 4 |}.

(** The starting state of the counterexample: the member is already
    subscribed under a third token. *)
Definition already_subscribed : VMSliceState :=
  memberSubscribed initialState {| memberRef := ball; id := "c" |}.

(** Library 1 with the single member 4. *)
Definition one_library : VMSliceState :=
  castMemberListChanged initialState
    {| cmlc_castNumber := 1;
       cmlc_members := {[ ToPropertyKey 4 := {[ "name" := JsString "ball" ]} ]} |}.

Definition member5_changed : CastMemberChangedPayload :=
  {| cmc_memberRef := (1, 5); cmc_snapshot := {[ "type" := JsString "bitmap" ]} |}.

(** Every cast snapshot is filed under the property key of its own
    [number]. *)
Definition casts_consistent (state : VMSliceState) : Prop :=
  ∀ key cast, castSnapshots state !! key = Some cast → key = ToPropertyKey (number cast).

(** The libraries that have a snapshot, as property keys. *)
Definition known_libraries (state : VMSliceState) : gset string :=
  dom (castSnapshots state).

Definition ball_a : TMemberSubscription := {| memberRef := ball; id := "a" |}.

Definition movie_running : VMSliceState :=
  frameChanged (movieLoaded one_library) 12.

(** ** Basic facts *)

Lemma ToPropertyKey_inj (m n : Z) : ToPropertyKey m = ToPropertyKey n → m = n.
Proof. unfold ToPropertyKey. apply (inj pretty). Qed.

Lemma ToPropertyKey_ne (m n : Z) : m ≠ n → ToPropertyKey m ≠ ToPropertyKey n.
Proof. intros Hne Heq. apply Hne, ToPropertyKey_inj, Heq. Qed.

(** Writing back the value a field already has gives the same state. *)
Lemma with_timeoutHandles_same (state : VMSliceState) :
  with_timeoutHandles state (timeoutHandles state) = state.
Proof. by destruct state. Qed.

Lemma with_subscribedMemberTokens_same (state : VMSliceState) :
  with_subscribedMemberTokens state (subscribedMemberTokens state) = state.
Proof. by destruct state. Qed.

(** A filter whose test accepts every element returns the list itself. *)
Lemma filter_all_true {A} (f : A → bool) (xs : list A) :
  (∀ x, x ∈ xs → f x = true) → List.filter f xs = xs.
Proof.
  induction xs as [|x xs IH]; intros Hall; simpl; [done|].
  rewrite (Hall x) by apply list_elem_of_here.
  f_equal. apply IH. intros y Hy. apply Hall. by apply list_elem_of_further.
Qed.

(** The boolean filter of the code against the propositional one. *)
Lemma filter_bool_decide {A} (f : A → bool) (P : A → Prop) `{∀ x, Decision (P x)}
    (xs : list A) :
  (∀ x, f x = true ↔ P x) → List.filter f xs = filter P xs.
Proof.
  intros Hf. induction xs as [|x xs IH]; simpl; [done|].
  rewrite filter_cons. destruct (f x) eqn:Hx.
  - rewrite decide_True by (by apply Hf). by rewrite IH.
  - rewrite decide_False; [done|]. intros HP. apply Hf in HP. congruence.
Qed.

Lemma elem_of_List_filter {A} (f : A → bool) (xs : list A) (x : A) :
  x ∈ List.filter f xs ↔ x ∈ xs ∧ f x = true.
Proof. rewrite !list_elem_of_In. apply filter_In. Qed.

(** ** Scope list *)

(** C3: applying scope-list-changed makes the payload the scope stack and
    leaves an empty datum-snapshot cache, whatever the cache held before. *)
Theorem scopeListChanged_resets_datum_cache (state : VMSliceState) (payload : list IVMScope) :
  scopes (scopeListChanged state payload) = payload
  ∧ datumSnapshots (scopeListChanged state payload) = ∅
  ∧ reducer state (ScopeListChanged payload) = Normal (scopeListChanged state payload).
Proof. done. Qed.

(** C10: scope-list-changed leaves every field other than the scope stack
    and the datum-snapshot cache as it was; the script-instance snapshot
    cache in particular is kept, entry for entry. *)
Theorem scopeListChanged_frame (state : VMSliceState) (payload : list IVMScope) :
  let state' := scopeListChanged state payload in
  scriptInstanceSnapshots state' = scriptInstanceSnapshots state
  ∧ castNames state' = castNames state
  ∧ castSnapshots state' = castSnapshots state
  ∧ scoreSnapshot state' = scoreSnapshot state
  ∧ currentFrame state' = currentFrame state
  ∧ scriptError state' = scriptError state
  ∧ breakpoints state' = breakpoints state
  ∧ globals state' = globals state
  ∧ timeoutHandles state' = timeoutHandles state
  ∧ channelSnapshots state' = channelSnapshots state
  ∧ subscribedMemberTokens state' = subscribedMemberTokens state
  ∧ isMovieLoaded state' = isMovieLoaded state.
Proof. simpl. repeat split. Qed.

(** A populated script-instance cache survives a scope change that empties
    the datum cache. *)
Example scopeListChanged_keeps_instances :
  let state := scriptInstanceSnapshot (datumSnapshot initialState 7 (JsNumber 1)) 3 JsNull in
  let state' := scopeListChanged state [JsString "frame"] in
  scriptInstanceSnapshots state' !! ToPropertyKey 3 = Some JsNull
  ∧ datumSnapshots state !! ToPropertyKey 7 = Some (JsNumber 1)
  ∧ datumSnapshots state' !! ToPropertyKey 7 = None.
Proof. by vm_compute. Qed.

(** ** Movie loaded *)

(** C8: movie-loaded is idempotent: applying it twice gives the state that
    applying it once gives, and that state has the flag set. *)
Theorem movieLoaded_idempotent (state : VMSliceState) :
  movieLoaded (movieLoaded state) = movieLoaded state
  ∧ isMovieLoaded (movieLoaded state) = true
  ∧ (state1 ← reducer state MovieLoaded; reducer state1 MovieLoaded) = reducer state MovieLoaded.
Proof. done. Qed.

(** ** Cast libraries *)

(** C6: cast-member-list-changed for library [L] leaves the snapshot, and so
    every member entry, of any other library [L'] as it was. *)
Theorem castMemberListChanged_other_library (state : VMSliceState)
    (payload : CastMemberListChangedPayload) (L' : Z) :
  L' ≠ cmlc_castNumber payload →
  let state' := castMemberListChanged state payload in
  selectCastSnapshot state' L' = selectCastSnapshot state L'
  ∧ (∀ memberNum, member_entry state' L' memberNum = member_entry state L' memberNum)
  ∧ reducer state (CastMemberListChanged payload) = Normal state'.
Proof.
  intros Hne state'.
  assert (Hsnap : castSnapshots state' !! ToPropertyKey L'
                  = castSnapshots state !! ToPropertyKey L').
  { subst state'. unfold castMemberListChanged. simpl.
    apply lookup_insert_ne. by apply ToPropertyKey_ne. }
  split; [exact Hsnap|]. split; [|done].
  intros memberNum. unfold member_entry. by rewrite Hsnap.
Qed.

Lemma castMemberListChanged_other_library_witness :
  member_entry
    (castMemberListChanged two_libraries
       {| cmlc_castNumber := 2;
          cmlc_members := {[ ToPropertyKey 9 := {[ "name" := JsString "bat" ]} ]} |})
    1 4
  = member_entry two_libraries 1 4.
Proof.
  refine (proj1 (proj2 (castMemberListChanged_other_library two_libraries
    {| cmlc_castNumber := 2;
       cmlc_members := {[ ToPropertyKey 9 := {[ "name" := JsString "bat" ]} ]} |}
    1 _)) 4).
  simpl. lia.
Defined.

(** The library the event names is replaced whole: its former members are
    gone unless the payload lists them again. *)
Lemma castMemberListChanged_target (state : VMSliceState)
    (payload : CastMemberListChangedPayload) :
  selectCastSnapshot (castMemberListChanged state payload) (cmlc_castNumber payload)
  = Some {| number := cmlc_castNumber payload; members := cmlc_members payload |}.
Proof. unfold selectCastSnapshot, castMemberListChanged. simpl. apply lookup_insert_eq. Qed.

(** ** Sprite channels *)

(** C7: on a channel that has an entry, channel-display-name-changed sets the
    [displayName] property of that entry to the new name, keeps every other
    property of the entry, keeps every other channel, and keeps every other
    field of the state. *)
Theorem channelDisplayNameChanged_partial_merge (state : VMSliceState)
    (channelNumber : Z) (displayName : string) (old : ScoreSpriteSnapshot) :
  channelSnapshots state !! ToPropertyKey channelNumber = Some old →
  let state' := channelDisplayNameChanged state channelNumber displayName in
  (∃ new, channelSnapshots state' !! ToPropertyKey channelNumber = Some new
          ∧ new !! "displayName" = Some (JsString displayName)
          ∧ ∀ prop, prop ≠ "displayName" → new !! prop = old !! prop)
  ∧ (∀ key, key ≠ ToPropertyKey channelNumber →
       channelSnapshots state' !! key = channelSnapshots state !! key)
  ∧ (∀ n, n ≠ channelNumber →
       channelSnapshots state' !! ToPropertyKey n = channelSnapshots state !! ToPropertyKey n)
  ∧ with_channelSnapshots state' (channelSnapshots state) = state.
Proof.
  intros Hold state'. subst state'. unfold channelDisplayNameChanged. simpl.
  rewrite Hold. simpl.
  split; [|split; [|split]].
  - exists (<["displayName" := JsString displayName]> old).
    split; [apply lookup_insert_eq|].
    split; [apply lookup_insert_eq|].
    intros prop Hprop. by apply lookup_insert_ne.
  - intros key Hkey. by apply lookup_insert_ne.
  - intros n Hn. apply lookup_insert_ne. apply ToPropertyKey_ne. congruence.
  - by destruct state.
Qed.

Lemma channelDisplayNameChanged_partial_merge_witness :
  ∃ new,
    channelSnapshots (channelDisplayNameChanged one_channel 3 "X") !! ToPropertyKey 3 = Some new
    ∧ new !! "displayName" = Some (JsString "X")
    ∧ ∀ prop, prop ≠ "displayName" →
        new !! prop
        = ({[ "a" := JsNumber 1; "b" := JsNumber 2; "displayName" := JsString "old" ]}
             : ScoreSpriteSnapshot) !! prop.
Proof.
  refine (proj1 (channelDisplayNameChanged_partial_merge one_channel 3 "X" _ _)).
  by vm_compute.
Defined.

(** Without an entry for the channel the same event creates one that holds
    the display name and nothing else. *)
Lemma channelDisplayNameChanged_creates (state : VMSliceState)
    (channelNumber : Z) (displayName : string) :
  channelSnapshots state !! ToPropertyKey channelNumber = None →
  channelSnapshots (channelDisplayNameChanged state channelNumber displayName)
    !! ToPropertyKey channelNumber
  = Some {[ "displayName" := JsString displayName ]}.
Proof.
  intros Hnone. unfold channelDisplayNameChanged. simpl. rewrite Hnone. simpl.
  apply lookup_insert_eq.
Qed.

(** ** Removals that find nothing *)

(** C9: removing a timer name that has no handle, and unsubscribing a token
    that no subscription record carries, both return the state they were
    given; both are ordinary completions of the reducer, not errors. *)
Theorem remove_unknown_is_noop (state : VMSliceState) (name token : string) :
  (timeoutHandles state !! name = None →
     removeTimeoutHandle state name = state
     ∧ reducer state (RemoveTimeoutHandle name) = Normal state)
  ∧ ((∀ t, t ∈ subscribedMemberTokens state → id t ≠ token) →
       memberUnsubscribed state token = state
       ∧ reducer state (MemberUnsubscribed token) = Normal state).
Proof.
  split.
  - intros Hnone.
    assert (Heq : removeTimeoutHandle state name = state).
    { unfold removeTimeoutHandle. simpl. rewrite delete_id by done.
      apply with_timeoutHandles_same. }
    split; [exact Heq|]. simpl. by rewrite Heq.
  - intros Hnone.
    assert (Heq : memberUnsubscribed state token = state).
    { unfold memberUnsubscribed. rewrite filter_all_true.
      - apply with_subscribedMemberTokens_same.
      - intros t Ht. apply negb_true_iff, String.eqb_neq. by apply Hnone. }
    split; [exact Heq|]. simpl. by rewrite Heq.
Qed.

Lemma remove_unknown_is_noop_witness :
  removeTimeoutHandle one_timer_one_token "tock" = one_timer_one_token
  ∧ memberUnsubscribed one_timer_one_token "z" = one_timer_one_token.
Proof.
  destruct (remove_unknown_is_noop one_timer_one_token "tock" "z") as [Htimer Htoken].
  split.
  - apply Htimer. by vm_compute.
  - apply Htoken. intros t Ht. simpl in Ht.
    apply list_elem_of_singleton in Ht. by subst t.
Defined.

(** Removal of a name that is there does change the state: the handle is
    gone and the others stay. *)
Lemma removeTimeoutHandle_lookup (state : VMSliceState) (name other : string) :
  timeoutHandles (removeTimeoutHandle state name) !! other
  = if decide (name = other) then None else timeoutHandles state !! other.
Proof. unfold removeTimeoutHandle. simpl. apply lookup_delete. Qed.

(** ** Breakpoints *)

Lemma selectBreakpoints_no_filter (state : VMSliceState) :
  selectBreakpoints state None = breakpoints state.
Proof. unfold selectBreakpoints. simpl. by apply filter_all_true. Qed.

Lemma selectBreakpoints_empty_filter (state : VMSliceState) :
  selectBreakpoints state (Some "") = breakpoints state.
Proof. unfold selectBreakpoints. simpl. by apply filter_all_true. Qed.

Lemma selectBreakpoints_named (state : VMSliceState) (name : string) :
  name ≠ "" →
  selectBreakpoints state (Some name) = breakpoints_for_script_spec (breakpoints state) name.
Proof.
  intros Hname. unfold selectBreakpoints, breakpoints_for_script_spec.
  apply filter_bool_decide. intros b. simpl.
  apply String.eqb_neq in Hname. rewrite Hname. simpl.
  apply String.eqb_eq.
Qed.

(** C4, as amended: for a non-empty script name the selector returns exactly
    the breakpoints whose script name is that name, in list order; with no
    name, and with the empty string as name, it returns the whole list
    unchanged. *)
Theorem selectBreakpoints_filter (state : VMSliceState) (name : string) :
  name ≠ "" →
  selectBreakpoints state (Some name) = breakpoints_for_script_spec (breakpoints state) name
  ∧ (∀ b, b ∈ selectBreakpoints state (Some name)
          ↔ b ∈ breakpoints state ∧ script_name b = name)
  ∧ selectBreakpoints state (Some name) `sublist_of` breakpoints state
  ∧ selectBreakpoints state None = breakpoints state
  ∧ selectBreakpoints state (Some "") = breakpoints state.
Proof.
  intros Hname. rewrite (selectBreakpoints_named state name Hname).
  unfold breakpoints_for_script_spec.
  split; [done|]. split; [|split; [|split]].
  - intros b. rewrite list_elem_of_filter. tauto.
  - apply sublist_filter.
  - apply selectBreakpoints_no_filter.
  - apply selectBreakpoints_empty_filter.
Qed.

Lemma selectBreakpoints_filter_witness :
  selectBreakpoints three_breakpoints (Some "foo")
  = breakpoints_for_script_spec (breakpoints three_breakpoints) "foo".
Proof.
  refine (proj1 (selectBreakpoints_filter three_breakpoints "foo" _)).
  discriminate.
Defined.

(** C4 as stated fails for the empty string used as the filter: no
    breakpoint of [three_breakpoints] has an empty script name, so the subset
    the claim describes is empty, yet the selector returns all three. *)
Lemma selectBreakpoints_empty_name_counterexample :
  selectBreakpoints three_breakpoints (Some "") = [bp "foo"; bp "bar"; bp "foo"]
  ∧ breakpoints_for_script_spec (breakpoints three_breakpoints) "" = []
  ∧ selectBreakpoints three_breakpoints (Some "")
    ≠ breakpoints_for_script_spec (breakpoints three_breakpoints) "".
Proof.
  assert (Hcode : selectBreakpoints three_breakpoints (Some "")
                  = [bp "foo"; bp "bar"; bp "foo"]) by reflexivity.
  assert (Hspec : breakpoints_for_script_spec (breakpoints three_breakpoints) "" = [])
    by reflexivity.
  split; [exact Hcode|]. split; [exact Hspec|].
  rewrite Hcode, Hspec. discriminate.
Qed.

(** ** Subscription ledger *)

Lemma memberSubscribed_elem (state : VMSliceState) (payload t : TMemberSubscription) :
  t ∈ subscribedMemberTokens (memberSubscribed state payload)
  ↔ t ∈ subscribedMemberTokens state ∨ t = payload.
Proof.
  unfold memberSubscribed. simpl.
  rewrite elem_of_app, list_elem_of_singleton. tauto.
Qed.

Lemma memberUnsubscribed_elem (state : VMSliceState) (token : string) (t : TMemberSubscription) :
  t ∈ subscribedMemberTokens (memberUnsubscribed state token)
  ↔ t ∈ subscribedMemberTokens state ∧ id t ≠ token.
Proof.
  unfold memberUnsubscribed. simpl.
  rewrite elem_of_List_filter, negb_true_iff, String.eqb_neq. tauto.
Qed.

(** Subscribing appends, so earlier records keep their place and the same
    member may be recorded more than once. *)
Lemma memberSubscribed_counts (state : VMSliceState) (payload : TMemberSubscription) :
  length (subscribedMemberTokens (memberSubscribed state payload))
  = S (length (subscribedMemberTokens state)).
Proof. unfold memberSubscribed. simpl. rewrite length_app. simpl. lia. Qed.

(** C5, as amended: after subscribing a member under distinct tokens [a] and
    [b], unsubscribing [a] leaves the record of token [b], so the member is
    still of interest.  Unsubscribing [b] as well leaves exactly the records
    of the starting state whose token is neither [a] nor [b]; the member is
    then still of interest exactly when the starting state already had a
    record for it under such a token, and in particular it is no longer of
    interest when the starting state had none. *)
Theorem subscription_reference_counting (state : VMSliceState)
    (member : ICastMemberIdentifier) (a b : string) :
  a ≠ b →
  let state1 := memberUnsubscribed (subscribed_twice state member a b) a in
  let state2 := memberUnsubscribed state1 b in
  {| memberRef := member; id := b |} ∈ subscribedMemberTokens state1
  ∧ of_interest state1 member
  ∧ (∀ t, t ∈ subscribedMemberTokens state2
          ↔ t ∈ subscribedMemberTokens state ∧ id t ≠ a ∧ id t ≠ b)
  ∧ (of_interest state2 member
     ↔ ∃ t, t ∈ subscribedMemberTokens state ∧ memberRef t = member ∧ id t ≠ a ∧ id t ≠ b)
  ∧ ((∀ t, t ∈ subscribedMemberTokens state → memberRef t ≠ member) →
     ¬ of_interest state2 member).
Proof.
  intros Hab state1 state2.
  assert (Hb : {| memberRef := member; id := b |} ∈ subscribedMemberTokens state1).
  { subst state1. apply memberUnsubscribed_elem. split; [|simpl; congruence].
    apply memberSubscribed_elem. by right. }
  assert (Hleft : ∀ t, t ∈ subscribedMemberTokens state2
                       ↔ t ∈ subscribedMemberTokens state ∧ id t ≠ a ∧ id t ≠ b).
  { intros t. subst state2 state1. unfold subscribed_twice.
    rewrite !memberUnsubscribed_elem, !memberSubscribed_elem.
    split.
    - intros [[[[Ht | ->] | ->] Ha] Hb']; simpl in *; try congruence. done.
    - intros (Ht & Ha & Hb'). auto. }
  assert (Hiff : of_interest state2 member
                 ↔ ∃ t, t ∈ subscribedMemberTokens state
                        ∧ memberRef t = member ∧ id t ≠ a ∧ id t ≠ b).
  { unfold of_interest. split.
    - intros (t & Ht & Hm). apply Hleft in Ht. exists t. tauto.
    - intros (t & Ht & Hm & Ha & Hb'). exists t. split; [|done]. apply Hleft. tauto. }
  split; [exact Hb|]. split; [by exists {| memberRef := member; id := b |}|].
  split; [exact Hleft|]. split; [exact Hiff|].
  intros Hnone Hint. apply Hiff in Hint as (t & Ht & Hm & _). by apply (Hnone t).
Qed.

Lemma subscription_reference_counting_witness :
  of_interest (memberUnsubscribed (subscribed_twice initialState ball "a" "b") "a") ball
  ∧ ¬ of_interest
        (memberUnsubscribed
           (memberUnsubscribed (subscribed_twice initialState ball "a" "b") "a") "b")
        ball.
Proof.
  assert (Hab : "a" ≠ "b") by discriminate.
  destruct (subscription_reference_counting initialState ball "a" "b" Hab)
    as (_ & Hstill & _ & _ & Hgone).
  split; [exact Hstill|]. apply Hgone.
  intros t Ht. simpl in Ht. by apply elem_of_nil in Ht.
Defined.

(** C5 as stated fails when the starting state already records the member
    under another token: tokens "a" and "b" are distinct, both are
    subscribed and unsubscribed, and the record of token "c" is still
    there. *)
Lemma subscription_third_token_counterexample :
  "a" ≠ "b"
  ∧ subscribedMemberTokens
      (memberUnsubscribed
         (memberUnsubscribed (subscribed_twice already_subscribed ball "a" "b") "a") "b")
    = [ {| memberRef := ball; id := "c" |} ]
  ∧ of_interest
      (memberUnsubscribed
         (memberUnsubscribed (subscribed_twice already_subscribed ball "a" "b") "a") "b")
      ball.
Proof.
  split; [discriminate|]. split; [reflexivity|].
  exists {| memberRef := ball; id := "c" |}. split; [|reflexivity].
  simpl. apply list_elem_of_here.
Qed.

(** ** Member snapshots *)

(** With no snapshot for the library, cast-member-changed throws. *)
Lemma castMemberChanged_unknown_library (state : VMSliceState)
    (payload : CastMemberChangedPayload) :
  castSnapshots state !! ToPropertyKey (cmc_memberRef payload).1 = None →
  castMemberChanged state payload = Throw TypeError.
Proof. intros Hnone. unfold castMemberChanged. simpl. by rewrite Hnone. Qed.

(** With a snapshot for the library, cast-member-changed returns a state, and
    what it does to the cast snapshots is an update of one member entry of
    that library. *)
Lemma castMemberChanged_known_library (state : VMSliceState)
    (payload : CastMemberChangedPayload) (cast : CastSnapshot) :
  let castLibNum := (cmc_memberRef payload).1 in
  let memberNum := (cmc_memberRef payload).2 in
  castSnapshots state !! ToPropertyKey castLibNum = Some cast →
  ∃ state',
    castMemberChanged state payload = Normal state'
    ∧ member_entry state' castLibNum memberNum
      = Some (<["snapshot" := JsObject (cmc_snapshot payload)]>
                (spread (members cast !! ToPropertyKey memberNum)))
    ∧ (∀ memberNum', memberNum' ≠ memberNum →
         member_entry state' castLibNum memberNum' = member_entry state castLibNum memberNum')
    ∧ (∀ castLibNum', castLibNum' ≠ castLibNum →
         selectCastSnapshot state' castLibNum' = selectCastSnapshot state castLibNum')
    ∧ number <$> selectCastSnapshot state' castLibNum = Some (number cast)
    ∧ with_castSnapshots state' (castSnapshots state) = state.
Proof.
  intros castLibNum memberNum Hcast.
  eexists. split.
  { unfold castMemberChanged. fold castLibNum memberNum. rewrite Hcast. reflexivity. }
  unfold member_entry, selectCastSnapshot. simpl.
  split; [|split; [|split; [|split]]].
  - rewrite lookup_insert_eq. simpl. apply lookup_insert_eq.
  - intros memberNum' Hne. rewrite lookup_insert_eq, Hcast. simpl.
    apply lookup_insert_ne. apply ToPropertyKey_ne. congruence.
  - intros castLibNum' Hne. apply lookup_insert_ne. apply ToPropertyKey_ne. congruence.
  - by rewrite lookup_insert_eq.
  - by destruct state.
Qed.

(** C1, as amended: for a cast-member-changed event whose member entry is
    not in the state, the step throws and returns no state when the library
    itself is missing; when the library is there, the step succeeds and
    creates the entry, holding the snapshot alone, and changes nothing else:
    the other members of the library, its number, the other libraries and
    the other fields of the state stay as they were. *)
Theorem castMemberChanged_missing_entry (state : VMSliceState)
    (payload : CastMemberChangedPayload) :
  let castLibNum := (cmc_memberRef payload).1 in
  let memberNum := (cmc_memberRef payload).2 in
  member_entry state castLibNum memberNum = None →
  match castSnapshots state !! ToPropertyKey castLibNum with
  | None =>
      castMemberChanged state payload = Throw TypeError
      ∧ reducer state (CastMemberChanged payload) = Throw TypeError
  | Some cast =>
      ∃ state',
        castMemberChanged state payload = Normal state'
        ∧ member_entry state' castLibNum memberNum
          = Some {[ "snapshot" := JsObject (cmc_snapshot payload) ]}
        ∧ (∀ memberNum', memberNum' ≠ memberNum →
             member_entry state' castLibNum memberNum'
             = member_entry state castLibNum memberNum')
        ∧ (∀ castLibNum', castLibNum' ≠ castLibNum →
             selectCastSnapshot state' castLibNum' = selectCastSnapshot state castLibNum')
        ∧ number <$> selectCastSnapshot state' castLibNum = Some (number cast)
        ∧ with_castSnapshots state' (castSnapshots state) = state
  end.
Proof.
  intros castLibNum memberNum Hentry. subst castLibNum memberNum.
  destruct (castSnapshots state !! ToPropertyKey (cmc_memberRef payload).1)
    as [cast|] eqn:Hcast.
  - destruct (castMemberChanged_known_library state payload cast Hcast)
      as (state' & Hrun & Hnew & Hrest).
    exists state'. split; [exact Hrun|]. split; [|exact Hrest].
    rewrite Hnew.
    unfold member_entry in Hentry. rewrite Hcast in Hentry. simpl in Hentry.
    rewrite Hentry. simpl. by rewrite insert_empty.
  - assert (Hthrow : castMemberChanged state payload = Throw TypeError)
      by (by apply castMemberChanged_unknown_library).
    split; [exact Hthrow|]. simpl. exact Hthrow.
Qed.

Lemma castMemberChanged_missing_entry_witness :
  ∃ state',
    castMemberChanged one_library member5_changed = Normal state'
    ∧ member_entry state' 1 5
      = Some {[ "snapshot" := JsObject {[ "type" := JsString "bitmap" ]} ]}
    ∧ member_entry state' 1 4 = member_entry one_library 1 4.
Proof.
  assert (Hentry : member_entry one_library 1 5 = None) by (by vm_compute).
  pose proof (castMemberChanged_missing_entry one_library member5_changed Hentry) as Hthm.
  cbv zeta in Hthm.
  change (cmc_memberRef member5_changed).1 with 1 in Hthm.
  change (cmc_memberRef member5_changed).2 with 5 in Hthm.
  assert (Hcast : castSnapshots one_library !! ToPropertyKey 1
                  = Some {| number := 1;
                            members := {[ ToPropertyKey 4 := {[ "name" := JsString "ball" ]} ]} |})
    by apply lookup_insert_eq.
  rewrite Hcast in Hthm.
  destruct Hthm as (state' & Hrun & Hnew & Hothers & _).
  exists state'. split; [exact Hrun|]. split; [exact Hnew|].
  apply Hothers. lia.
Defined.

(** C1 as stated fails for a known library and an unknown member: the event
    for member 5 of library 1 is not rejected, the state it returns differs
    from the one it was given, and member 5 now has an entry. *)
Lemma castMemberChanged_creates_entry_counterexample :
  member_entry one_library 1 5 = None
  ∧ ∃ state',
      castMemberChanged one_library member5_changed = Normal state'
      ∧ state' ≠ one_library
      ∧ member_entry state' 1 5
        = Some {[ "snapshot" := JsObject {[ "type" := JsString "bitmap" ]} ]}.
Proof.
  assert (Hentry : member_entry one_library 1 5 = None) by (by vm_compute).
  split; [exact Hentry|].
  assert (Hcast : castSnapshots one_library !! ToPropertyKey 1
                  = Some {| number := 1;
                            members := {[ ToPropertyKey 4 := {[ "name" := JsString "ball" ]} ]} |})
    by apply lookup_insert_eq.
  destruct (castMemberChanged_known_library one_library member5_changed _ Hcast)
    as (state' & Hrun & Hnew & _).
  assert (Hnew' : member_entry state' 1 5
                  = Some {[ "snapshot" := JsObject {[ "type" := JsString "bitmap" ]} ]}).
  { etrans; [exact Hnew|]. by vm_compute. }
  exists state'. split; [exact Hrun|]. split; [|exact Hnew'].
  intros Heq. rewrite Heq, Hentry in Hnew'. discriminate.
Qed.

(** X24: when the entry is there, the snapshot is merged into it: the entry keeps
    its other properties. *)
Lemma castMemberChanged_existing_entry (state : VMSliceState)
    (payload : CastMemberChangedPayload) (entry : MemberSnapshot) :
  member_entry state (cmc_memberRef payload).1 (cmc_memberRef payload).2 = Some entry →
  ∃ state',
    castMemberChanged state payload = Normal state'
    ∧ member_entry state' (cmc_memberRef payload).1 (cmc_memberRef payload).2
      = Some (<["snapshot" := JsObject (cmc_snapshot payload)]> entry).
Proof.
  intros Hentry. unfold member_entry in Hentry.
  destruct (castSnapshots state !! ToPropertyKey (cmc_memberRef payload).1)
    as [cast|] eqn:Hcast; [|done].
  simpl in Hentry.
  destruct (castMemberChanged_known_library state payload cast Hcast)
    as (state' & Hrun & Hnew & _).
  exists state'. split; [exact Hrun|]. rewrite Hnew, Hentry. done.
Qed.

(** The selector throws when the state has no snapshot for the cast. *)
Lemma selectMemberSnapshot_unknown_cast (state : VMSliceState) (castNumber memberNumber : Z) :
  selectCastSnapshot state castNumber = None →
  selectMemberSnapshot state castNumber memberNumber = Throw TypeError.
Proof. intros Hnone. unfold selectMemberSnapshot. by rewrite Hnone. Qed.

(** With the cast there, a member that has no entry is reported as absent. *)
Lemma selectMemberSnapshot_unknown_member (state : VMSliceState)
    (castNumber memberNumber : Z) (cast : CastSnapshot) :
  selectCastSnapshot state castNumber = Some cast →
  members cast !! ToPropertyKey memberNumber = None →
  selectMemberSnapshot state castNumber memberNumber = Normal None.
Proof.
  intros Hcast Hnone. unfold selectMemberSnapshot.
  rewrite Hcast. simpl. by rewrite Hnone.
Qed.

(** With cast and entry there, the selector returns the entry's [snapshot]
    property, which is absent until a cast-member-changed event sets it. *)
Lemma selectMemberSnapshot_known (state : VMSliceState)
    (castNumber memberNumber : Z) (entry : MemberSnapshot) :
  member_entry state castNumber memberNumber = Some entry →
  selectMemberSnapshot state castNumber memberNumber = Normal (entry !! "snapshot").
Proof.
  unfold member_entry, selectMemberSnapshot, selectCastSnapshot.
  destruct (castSnapshots state !! ToPropertyKey castNumber) as [cast|]; [|done].
  simpl. by intros ->.
Qed.

(** C2: on the initial state, which has no cast snapshot at all, the lookup
    of member 1 of cast 1 does not return absent: it throws a TypeError. *)
Theorem selectMemberSnapshot_initialState_throws :
  selectCastSnapshot initialState 1 = None
  ∧ selectMemberSnapshot initialState 1 1 = Throw TypeError
  ∧ selectMemberSnapshotById initialState {| castNumber := 1; memberNumber := 1 |}
    = Throw TypeError.
Proof. by vm_compute. Qed.

(** ** Events in sequence *)

Lemma reduce_all_app (state : VMSliceState) (first second : list Action) :
  reduce_all state (first ++ second)
  = (state' ← reduce_all state first; reduce_all state' second).
Proof.
  revert state. induction first as [|action first IH]; intros state; simpl; [done|].
  destruct (reducer state action) as [state1|e]; simpl; [apply IH|done].
Qed.

(** ** Scopes *)

(** X1: the current scope is the last scope of the stack, and there is none when
    the stack is empty. *)
Theorem selectCurrentScope_last (state : VMSliceState) :
  selectCurrentScope state = last (scopes state)
  ∧ (selectCurrentScope state = None ↔ scopes state = [])
  ∧ ∀ outer inner,
      selectCurrentScope (scopeListChanged state (outer ++ [inner])) = Some inner.
Proof.
  assert (Hlast : ∀ xs : list IVMScope,
            array_at xs (Z.of_nat (length xs) - 1) = last xs).
  { intros xs. unfold array_at. rewrite last_lookup.
    destruct xs as [|x xs]; [done|].
    simpl length.
    destruct (Z.ltb_spec (Z.of_nat (S (length xs)) - 1) 0) as [Hlt|Hge]; [lia|].
    destruct (Z.ltb_spec (Z.of_nat (S (length xs)) - 1) 0); [lia|].
    f_equal. lia. }
  unfold selectCurrentScope. split; [apply Hlast|]. split.
  - rewrite Hlast. apply last_None.
  - intros outer inner. simpl. rewrite Hlast. apply last_snoc.
Qed.

(** X2: a scope change forgets the datum snapshots received before it, and of
    two scope changes in a row only the second shows. *)
Theorem scopeListChanged_absorbs (state : VMSliceState) (datumRef : DatumRef)
    (datum : JsBridgeDatum) (first second : list IVMScope) :
  scopeListChanged (datumSnapshot state datumRef datum) second
  = scopeListChanged state second
  ∧ scopeListChanged (scopeListChanged state first) second
    = scopeListChanged state second
  ∧ datumSnapshots (datumSnapshot (scopeListChanged state second) datumRef datum)
    = {[ ToPropertyKey datumRef := datum ]}.
Proof. done. Qed.

(** ** Timers *)

(** X3: setting a handle under a name that had none and removing that name gives
    back the starting state; in between the handle is the one that was set. *)
Theorem setTimeoutHandle_then_remove (state : VMSliceState) (name : string) (handle : Timer) :
  timeoutHandles state !! name = None →
  timeoutHandles (setTimeoutHandle state name handle) !! name = Some handle
  ∧ removeTimeoutHandle (setTimeoutHandle state name handle) name = state.
Proof.
  intros Hnone. split; [apply lookup_insert_eq|].
  unfold removeTimeoutHandle, setTimeoutHandle. simpl.
  rewrite delete_insert_eq, delete_id by done. by destruct state.
Qed.

Lemma setTimeoutHandle_then_remove_witness :
  removeTimeoutHandle (setTimeoutHandle one_timer_one_token "tock" (JsNumber 3)) "tock"
  = one_timer_one_token.
Proof.
  refine (proj2 (setTimeoutHandle_then_remove one_timer_one_token "tock" (JsNumber 3) _)).
  by vm_compute.
Defined.

(** X4: a name holds one handle: setting it again replaces the handle, handles
    under other names are not touched, and the order in which two different
    names are set does not matter. *)
Theorem setTimeoutHandle_overwrites (state : VMSliceState) (name other : string)
    (first second : Timer) :
  setTimeoutHandle (setTimeoutHandle state name first) name second
  = setTimeoutHandle state name second
  ∧ (name ≠ other →
     timeoutHandles (setTimeoutHandle state name first) !! other
     = timeoutHandles state !! other
     ∧ setTimeoutHandle (setTimeoutHandle state name first) other second
       = setTimeoutHandle (setTimeoutHandle state other second) name first).
Proof.
  unfold setTimeoutHandle. simpl. split.
  - by rewrite insert_insert_eq.
  - intros Hne. split; [by apply lookup_insert_ne|].
    by rewrite insert_insert_ne.
Qed.

(** X5: after a removal the name has no handle, the other names keep theirs, and
    removing the same name again changes nothing. *)
Theorem removeTimeoutHandle_removes (state : VMSliceState) (name : string) :
  timeoutHandles (removeTimeoutHandle state name) !! name = None
  ∧ (∀ other, other ≠ name →
       timeoutHandles (removeTimeoutHandle state name) !! other
       = timeoutHandles state !! other)
  ∧ removeTimeoutHandle (removeTimeoutHandle state name) name
    = removeTimeoutHandle state name.
Proof.
  unfold removeTimeoutHandle. simpl. split; [apply lookup_delete_eq|]. split.
  - intros other Hne. by apply lookup_delete_ne.
  - by rewrite delete_delete_eq.
Qed.

(** ** Value caches *)

(** X6: a datum snapshot is read back under its own reference and under no
    other; a script-instance snapshot likewise under its own identifier.
    Neither event touches the other cache. *)
Theorem snapshot_caches_lookup (state : VMSliceState) (key other : Z) (datum : JsBridgeDatum) :
  datumSnapshots (datumSnapshot state key datum) !! ToPropertyKey other
  = (if decide (key = other) then Some datum
     else datumSnapshots state !! ToPropertyKey other)
  ∧ scriptInstanceSnapshots (scriptInstanceSnapshot state key datum) !! ToPropertyKey other
    = (if decide (key = other) then Some datum
       else scriptInstanceSnapshots state !! ToPropertyKey other)
  ∧ scriptInstanceSnapshots (datumSnapshot state key datum) = scriptInstanceSnapshots state
  ∧ datumSnapshots (scriptInstanceSnapshot state key datum) = datumSnapshots state.
Proof.
  unfold datumSnapshot, scriptInstanceSnapshot. simpl.
  split; [|split; [|done]].
  - destruct (decide (key = other)) as [->|Hne].
    + apply lookup_insert_eq.
    + apply lookup_insert_ne. by apply ToPropertyKey_ne.
  - destruct (decide (key = other)) as [->|Hne].
    + apply lookup_insert_eq.
    + apply lookup_insert_ne. by apply ToPropertyKey_ne.
Qed.

(** X7: no event drops an entry of the script-instance cache, and only a scope
    change drops entries of the datum cache. *)
Theorem caches_only_grow (state state' : VMSliceState) (action : Action) :
  reducer state action = Normal state' →
  dom (scriptInstanceSnapshots state) ⊆ dom (scriptInstanceSnapshots state')
  ∧ ((∀ payload, action ≠ ScopeListChanged payload) →
     dom (datumSnapshots state) ⊆ dom (datumSnapshots state')).
Proof.
  intros Hrun.
  destruct action; simpl in Hrun;
    try (injection Hrun as <-; simpl; split; [set_solver|intros Hno; set_solver]).
  unfold castMemberChanged in Hrun.
  destruct (castSnapshots state !! _); simpl in Hrun; [|discriminate].
  injection Hrun as <-. simpl. split; [done|done].
Qed.

Lemma caches_only_grow_witness :
  dom (scriptInstanceSnapshots
         (scriptInstanceSnapshot (datumSnapshot initialState 7 (JsNumber 1)) 3 JsNull))
  ⊆ dom (scriptInstanceSnapshots
           (scopeListChanged
              (scriptInstanceSnapshot (datumSnapshot initialState 7 (JsNumber 1)) 3 JsNull)
              [JsString "frame"])).
Proof.
  refine (proj1 (caches_only_grow
    (scriptInstanceSnapshot (datumSnapshot initialState 7 (JsNumber 1)) 3 JsNull)
    _ (ScopeListChanged [JsString "frame"]) _)).
  reflexivity.
Defined.

(** ** Channels, continued *)

(** X8: without an entry for the channel, the display-name event creates one
    whose only property is the display name; the other channels and the
    other fields of the state are as before. *)
Theorem channelDisplayNameChanged_implicit_entry (state : VMSliceState)
    (channelNumber : Z) (displayName : string) :
  channelSnapshots state !! ToPropertyKey channelNumber = None →
  let state' := channelDisplayNameChanged state channelNumber displayName in
  channelSnapshots state' !! ToPropertyKey channelNumber
  = Some {[ "displayName" := JsString displayName ]}
  ∧ (∀ key, key ≠ ToPropertyKey channelNumber →
       channelSnapshots state' !! key = channelSnapshots state !! key)
  ∧ with_channelSnapshots state' (channelSnapshots state) = state.
Proof.
  intros Hnone state'. subst state'. unfold channelDisplayNameChanged. simpl.
  rewrite Hnone. simpl. split; [apply lookup_insert_eq|]. split.
  - intros key Hkey. by apply lookup_insert_ne.
  - by destruct state.
Qed.

Lemma channelDisplayNameChanged_implicit_entry_witness :
  channelSnapshots (channelDisplayNameChanged one_channel 8 "ghost") !! ToPropertyKey 8
  = Some {[ "displayName" := JsString "ghost" ]}.
Proof.
  refine (proj1 (channelDisplayNameChanged_implicit_entry one_channel 8 "ghost" _)).
  by vm_compute.
Defined.

(** X9: how the two channel events compose: a display name set after a full
    snapshot is merged into it, a later display name replaces an earlier
    one, and a full snapshot replaces the entry, display name included. *)
Theorem channel_events_compose (state : VMSliceState) (channelNumber : Z)
    (channelData : ScoreSpriteSnapshot) (first second : string) :
  channelSnapshots
    (channelDisplayNameChanged (channelChanged state channelNumber channelData)
       channelNumber first) !! ToPropertyKey channelNumber
  = Some (<["displayName" := JsString first]> channelData)
  ∧ channelDisplayNameChanged
      (channelDisplayNameChanged state channelNumber first) channelNumber second
    = channelDisplayNameChanged state channelNumber second
  ∧ channelChanged (channelDisplayNameChanged state channelNumber first)
      channelNumber channelData
    = channelChanged state channelNumber channelData.
Proof.
  unfold channelDisplayNameChanged, channelChanged. simpl.
  split; [|split].
  - by rewrite !lookup_insert_eq.
  - rewrite lookup_insert_eq. simpl. by rewrite !insert_insert_eq.
  - by rewrite insert_insert_eq.
Qed.

(** ** Subscription ledger, continued *)

(** X10: after unsubscribing a token no record carries it; what is left is the
    records of the other tokens, in the order they had.  Unsubscribing the
    same token again changes nothing. *)
Theorem memberUnsubscribed_removes_token (state : VMSliceState) (token : string) :
  (∀ t, t ∈ subscribedMemberTokens (memberUnsubscribed state token) → id t ≠ token)
  ∧ subscribedMemberTokens (memberUnsubscribed state token)
    = filter (λ t, id t ≠ token) (subscribedMemberTokens state)
  ∧ subscribedMemberTokens (memberUnsubscribed state token)
    `sublist_of` subscribedMemberTokens state
  ∧ memberUnsubscribed (memberUnsubscribed state token) token
    = memberUnsubscribed state token.
Proof.
  assert (Hfilter : subscribedMemberTokens (memberUnsubscribed state token)
                    = filter (λ t, id t ≠ token) (subscribedMemberTokens state)).
  { unfold memberUnsubscribed. simpl. apply filter_bool_decide.
    intros t. by rewrite negb_true_iff, String.eqb_neq. }
  split; [|split; [exact Hfilter|split]].
  - intros t Ht. by apply memberUnsubscribed_elem in Ht as [_ Hne].
  - rewrite Hfilter. apply sublist_filter.
  - unfold memberUnsubscribed at 1. rewrite filter_all_true.
    + apply with_subscribedMemberTokens_same.
    + intros t Ht. apply memberUnsubscribed_elem in Ht as [_ Hne].
      by apply negb_true_iff, String.eqb_neq.
Qed.

(** X11: subscribing under a token that no record carries yet and unsubscribing
    that token gives back the starting state. *)
Theorem memberSubscribed_then_unsubscribed (state : VMSliceState)
    (payload : TMemberSubscription) :
  (∀ t, t ∈ subscribedMemberTokens state → id t ≠ id payload) →
  memberUnsubscribed (memberSubscribed state payload) (id payload) = state.
Proof.
  intros Hfresh. unfold memberUnsubscribed, memberSubscribed. simpl.
  rewrite List.filter_app. simpl. rewrite String.eqb_refl. simpl.
  rewrite app_nil_r, filter_all_true.
  - by destruct state.
  - intros t Ht. apply negb_true_iff, String.eqb_neq. by apply Hfresh.
Qed.

Lemma memberSubscribed_then_unsubscribed_witness :
  memberUnsubscribed
    (memberSubscribed already_subscribed ball_a) "a"
  = already_subscribed.
Proof.
  refine (memberSubscribed_then_unsubscribed already_subscribed ball_a _).
  intros t Ht. simpl in Ht. apply list_elem_of_singleton in Ht. by subst t.
Defined.

(** X12: the ledger does not deduplicate: subscribing the same record twice
    stores it twice.  The records are told apart by token only, so one
    unsubscribe of that token removes both. *)
Theorem memberSubscribed_same_token_twice (state : VMSliceState)
    (payload : TMemberSubscription) :
  subscribedMemberTokens (memberSubscribed (memberSubscribed state payload) payload)
  = subscribedMemberTokens state ++ [payload; payload]
  ∧ memberUnsubscribed (memberSubscribed (memberSubscribed state payload) payload)
      (id payload)
    = memberUnsubscribed state (id payload).
Proof.
  unfold memberUnsubscribed, memberSubscribed. simpl. split.
  - by rewrite <- app_assoc.
  - rewrite !List.filter_app. simpl. rewrite String.eqb_refl. simpl.
    by rewrite !app_nil_r.
Qed.

(** ** Cast libraries, continued *)

(** X13: right after a member list arrives for a library, looking up any member
    of that library does not throw: it returns the [snapshot] property of the
    listed entry, and absent for a member the list does not have. *)
Theorem selectMemberSnapshot_after_list (state : VMSliceState)
    (payload : CastMemberListChangedPayload) (memberNumber : Z) :
  selectMemberSnapshot (castMemberListChanged state payload)
    (cmlc_castNumber payload) memberNumber
  = Normal (entry ← cmlc_members payload !! ToPropertyKey memberNumber;
            entry !! "snapshot").
Proof.
  unfold selectMemberSnapshot. rewrite castMemberListChanged_target. simpl.
  by destruct (cmlc_members payload !! ToPropertyKey memberNumber).
Qed.

(** X14: a member snapshot merged into a known library is what the selector then
    returns for that member, whether or not the member had an entry. *)
Theorem castMemberChanged_then_select (state : VMSliceState)
    (payload : CastMemberChangedPayload) (cast : CastSnapshot) :
  castSnapshots state !! ToPropertyKey (cmc_memberRef payload).1 = Some cast →
  ∃ state',
    castMemberChanged state payload = Normal state'
    ∧ selectMemberSnapshot state' (cmc_memberRef payload).1 (cmc_memberRef payload).2
      = Normal (Some (JsObject (cmc_snapshot payload))).
Proof.
  intros Hcast.
  destruct (castMemberChanged_known_library state payload cast Hcast)
    as (state' & Hrun & Hnew & _).
  exists state'. split; [exact Hrun|].
  rewrite (selectMemberSnapshot_known _ _ _ _ Hnew). by rewrite lookup_insert_eq.
Qed.

Lemma castMemberChanged_then_select_witness :
  ∃ state',
    castMemberChanged one_library member5_changed = Normal state'
    ∧ selectMemberSnapshot state' 1 5
      = Normal (Some (JsObject {[ "type" := JsString "bitmap" ]})).
Proof.
  refine (castMemberChanged_then_select one_library member5_changed
            {| number := 1;
               members := {[ ToPropertyKey 4 := {[ "name" := JsString "ball" ]} ]} |} _).
  apply lookup_insert_eq.
Defined.

(** X15: a member list replaces the library whole, so it discards the snapshots
    merged into that library before; a later list for the same library
    replaces an earlier one, and lists for different libraries can arrive in
    either order. *)
Theorem castMemberListChanged_replaces (state : VMSliceState)
    (first second : CastMemberListChangedPayload) :
  (cmlc_castNumber first = cmlc_castNumber second →
     castMemberListChanged (castMemberListChanged state first) second
     = castMemberListChanged state second)
  ∧ (cmlc_castNumber first ≠ cmlc_castNumber second →
     castMemberListChanged (castMemberListChanged state first) second
     = castMemberListChanged (castMemberListChanged state second) first)
  ∧ (∀ changed state',
       (cmc_memberRef changed).1 = cmlc_castNumber second →
       castMemberChanged state changed = Normal state' →
       castMemberListChanged state' second = castMemberListChanged state second).
Proof.
  unfold castMemberListChanged. simpl. split; [|split].
  - intros ->. by rewrite insert_insert_eq.
  - intros Hne. rewrite insert_insert_ne; [done|]. by apply ToPropertyKey_ne.
  - intros changed state' Hlib Hrun. unfold castMemberChanged in Hrun.
    destruct (castSnapshots state !! _); simpl in Hrun; [|discriminate].
    injection Hrun as <-. simpl. rewrite Hlib. by rewrite insert_insert_eq.
Qed.

Lemma castMemberListChanged_replaces_witness :
  castMemberListChanged
    (castMemberListChanged initialState {| cmlc_castNumber := 1; cmlc_members := ∅ |})
    {| cmlc_castNumber := 2; cmlc_members := ∅ |}
  = castMemberListChanged
      (castMemberListChanged initialState {| cmlc_castNumber := 2; cmlc_members := ∅ |})
      {| cmlc_castNumber := 1; cmlc_members := ∅ |}.
Proof.
  refine (proj1 (proj2 (castMemberListChanged_replaces initialState
    {| cmlc_castNumber := 1; cmlc_members := ∅ |}
    {| cmlc_castNumber := 2; cmlc_members := ∅ |})) _).
  simpl. lia.
Defined.

(** ** The reducer as a whole *)

(** X16: the only event that can throw is cast-member-changed, and it throws
    exactly when its library has no snapshot. *)
Theorem reducer_throws_iff (state : VMSliceState) (action : Action) (e : JsError) :
  reducer state action = Throw e
  ↔ ∃ payload,
      action = CastMemberChanged payload
      ∧ castSnapshots state !! ToPropertyKey (cmc_memberRef payload).1 = None.
Proof.
  split.
  - intros Hrun. destruct action; simpl in Hrun; try discriminate.
    exists payload. split; [done|].
    unfold castMemberChanged in Hrun.
    by destruct (castSnapshots state !! _).
  - intros (payload & -> & Hnone). simpl.
    rewrite (castMemberChanged_unknown_library _ _ Hnone). by destruct e.
Qed.

(** X17: libraries appear through member lists only: a member list adds its
    library to the known ones, and no other event adds or removes one. *)
Theorem reducer_known_libraries (state state' : VMSliceState) (action : Action) :
  reducer state action = Normal state' →
  known_libraries state'
  = match action with
    | CastMemberListChanged payload =>
        {[ ToPropertyKey (cmlc_castNumber payload) ]} ∪ known_libraries state
    | _ => known_libraries state
    end.
Proof.
  intros Hrun. unfold known_libraries.
  destruct action; simpl in Hrun; try (by injection Hrun as <-).
  - injection Hrun as <-. simpl. apply dom_insert_L.
  - unfold castMemberChanged in Hrun.
    destruct (castSnapshots state !! _) eqn:Hcast; simpl in Hrun; [|discriminate].
    injection Hrun as <-. simpl. by apply dom_insert_lookup_L.
Qed.

Lemma reducer_known_libraries_witness :
  ∃ state', castMemberChanged one_library member5_changed = Normal state'
            ∧ known_libraries state' = known_libraries one_library.
Proof.
  destruct (castMemberChanged one_library member5_changed) as [state'|e] eqn:Hrun;
    [|discriminate].
  exists state'. split; [reflexivity|].
  exact (reducer_known_libraries one_library state' (CastMemberChanged member5_changed) Hrun).
Defined.

(** X18: every cast snapshot sits under the key of its own library number: this
    holds in the initial state and every event keeps it. *)
Theorem reducer_keeps_casts_consistent (state state' : VMSliceState) (action : Action) :
  casts_consistent initialState
  ∧ (casts_consistent state → reducer state action = Normal state' →
     casts_consistent state').
Proof.
  split; [intros key cast Hin; simpl in Hin; by rewrite lookup_empty in Hin|].
  intros Hinv Hrun. destruct action; simpl in Hrun; try (by injection Hrun as <-).
  - injection Hrun as <-. intros key cast. unfold castMemberListChanged. simpl.
    rewrite lookup_insert. case_decide as Hkey.
    + intros [= <-]. by rewrite <- Hkey.
    + apply Hinv.
  - unfold castMemberChanged in Hrun.
    destruct (castSnapshots state !! _) as [old|] eqn:Hcast; simpl in Hrun; [|discriminate].
    injection Hrun as <-. intros key cast. simpl.
    rewrite lookup_insert. case_decide as Hkey.
    + intros [= <-]. simpl. rewrite <- Hkey. by apply Hinv.
    + apply Hinv.
Qed.

Lemma reducer_keeps_casts_consistent_witness :
  casts_consistent one_library.
Proof.
  refine (proj2 (reducer_keeps_casts_consistent initialState one_library
    (CastMemberListChanged
       {| cmlc_castNumber := 1;
          cmlc_members := {[ ToPropertyKey 4 := {[ "name" := JsString "ball" ]} ]} |}))
    _ _).
  - intros key cast Hin. simpl in Hin. by rewrite lookup_empty in Hin.
  - reflexivity.
Defined.

(** X20: the loaded flag never goes back: after any event it is set if it was set
    before, and the movie-loaded event is the only one that sets it. *)
Theorem reducer_isMovieLoaded (state state' : VMSliceState) (action : Action) :
  reducer state action = Normal state' →
  isMovieLoaded state'
  = match action with
    | MovieLoaded => true
    | _ => isMovieLoaded state
    end.
Proof.
  intros Hrun. destruct action; simpl in Hrun; try (by injection Hrun as <-).
  unfold castMemberChanged in Hrun.
  destruct (castSnapshots state !! _); simpl in Hrun; [|discriminate].
  by injection Hrun as <-.
Qed.

Lemma reducer_isMovieLoaded_witness :
  isMovieLoaded (frameChanged (movieLoaded one_library) 12) = true.
Proof.
  exact (reducer_isMovieLoaded (movieLoaded one_library) movie_running (FrameChanged 12)
           eq_refl).
Defined.

(** X19: under that invariant the snapshot found for a library number carries
    that number. *)
Theorem selectCastSnapshot_number (state : VMSliceState) (castNumber : Z) (cast : CastSnapshot) :
  casts_consistent state →
  selectCastSnapshot state castNumber = Some cast →
  number cast = castNumber.
Proof.
  intros Hinv Hcast. apply Hinv in Hcast. symmetry. by apply ToPropertyKey_inj.
Qed.

Lemma selectCastSnapshot_number_witness :
  number {| number := 1;
            members := {[ ToPropertyKey 4 := {[ "name" := JsString "ball" ]} ]} |} = 1.
Proof.
  refine (selectCastSnapshot_number one_library 1 _ _ _).
  - intros key cast. unfold one_library, castMemberListChanged. simpl.
    rewrite lookup_insert. case_decide as Hkey.
    + intros [= <-]. by rewrite <- Hkey.
    + by rewrite lookup_empty.
  - apply lookup_insert_eq.
Defined.

(** X21: the fields that are replaced whole change through their own event only,
    and take the payload as it is: cast names, score, frame, breakpoints and
    globals.  The script error is set by the error event, cleared by the
    clear event, and kept by every other event. *)
Theorem reducer_replaced_fields (state state' : VMSliceState) (action : Action) :
  reducer state action = Normal state' →
  castNames state'
  = match action with CastListChanged p => p | _ => castNames state end
  ∧ scoreSnapshot state'
    = match action with ScoreChanged p => Some p | _ => scoreSnapshot state end
  ∧ currentFrame state'
    = match action with FrameChanged p => p | _ => currentFrame state end
  ∧ breakpoints state'
    = match action with BreakpointListChanged p => p | _ => breakpoints state end
  ∧ globals state'
    = match action with GlobalsChanged p => p | _ => globals state end
  ∧ scriptError state'
    = match action with
      | OnScriptError p => Some p
      | ScriptErrorCleared => None
      | _ => scriptError state
      end.
Proof.
  intros Hrun. destruct action; simpl in Hrun; try (by injection Hrun as <-).
  unfold castMemberChanged in Hrun.
  destruct (castSnapshots state !! _); simpl in Hrun; [|discriminate].
  by injection Hrun as <-.
Qed.

Lemma reducer_replaced_fields_witness :
  scriptError (frameChanged (onScriptError initialState "Handler not found") 2)
  = Some "Handler not found".
Proof.
  exact (proj2 (proj2 (proj2 (proj2 (proj2
    (reducer_replaced_fields (onScriptError initialState "Handler not found")
       (frameChanged (onScriptError initialState "Handler not found") 2)
       (FrameChanged 2) eq_refl)))))).
Defined.

(** X22: the keyed fields are left alone by the events of other fields: timers by
    all but the two timer events, channels by all but the two channel
    events, the ledger by all but subscribe and unsubscribe, and the cast
    snapshots by all but the two cast-member events. *)
Theorem reducer_keyed_fields_frame (state state' : VMSliceState) (action : Action) :
  reducer state action = Normal state' →
  match action with
  | SetTimeoutHandle _ _ | RemoveTimeoutHandle _ => True
  | _ => timeoutHandles state' = timeoutHandles state
  end
  ∧ match action with
    | ChannelChanged _ _ | ChannelDisplayNameChanged _ _ => True
    | _ => channelSnapshots state' = channelSnapshots state
    end
  ∧ match action with
    | MemberSubscribed _ | MemberUnsubscribed _ => True
    | _ => subscribedMemberTokens state' = subscribedMemberTokens state
    end
  ∧ match action with
    | CastMemberListChanged _ | CastMemberChanged _ => True
    | _ => castSnapshots state' = castSnapshots state
    end.
Proof.
  intros Hrun. destruct action; simpl in Hrun; try (by injection Hrun as <-).
  unfold castMemberChanged in Hrun.
  destruct (castSnapshots state !! _); simpl in Hrun; [|discriminate].
  by injection Hrun as <-.
Qed.

Lemma reducer_keyed_fields_frame_witness :
  subscribedMemberTokens (scopeListChanged already_subscribed [])
  = subscribedMemberTokens already_subscribed.
Proof.
  exact (proj1 (proj2 (proj2
    (reducer_keyed_fields_frame already_subscribed
       (scopeListChanged already_subscribed []) (ScopeListChanged []) eq_refl)))).
Defined.

(** ** Breakpoints, continued *)

(** X23: whatever the filter, the selector returns breakpoints of the list in
    list order and adds none; with a non-empty name every one it returns has
    that script name; and selecting again from its own result returns that
    result. *)
Theorem selectBreakpoints_sound (state : VMSliceState) (scriptName : option string) :
  selectBreakpoints state scriptName `sublist_of` breakpoints state
  ∧ (∀ name b, scriptName = Some name → name ≠ "" →
       b ∈ selectBreakpoints state scriptName → script_name b = name)
  ∧ selectBreakpoints
      (breakpointListChanged state (selectBreakpoints state scriptName)) scriptName
    = selectBreakpoints state scriptName.
Proof.
  unfold selectBreakpoints. simpl. split; [|split].
  - induction (breakpoints state) as [|b bs IH]; simpl; [done|].
    destruct (_ || _); [by apply sublist_skip|by apply sublist_cons].
  - intros name b -> Hname Hb. apply elem_of_List_filter in Hb as [_ Hb].
    simpl in Hb. apply String.eqb_neq in Hname. rewrite Hname in Hb. simpl in Hb.
    by apply String.eqb_eq.
  - apply filter_all_true. intros b Hb. by apply elem_of_List_filter in Hb as [_ Hb].
Qed.

Lemma selectBreakpoints_sound_witness :
  script_name (bp "bar") = "bar".
Proof.
  refine (proj1 (proj2 (selectBreakpoints_sound three_breakpoints (Some "bar")))
            "bar" (bp "bar") eq_refl _ _).
  - discriminate.
  - simpl. apply list_elem_of_here.
Defined.

(** ** Witnesses for the facts above *)

Lemma setTimeoutHandle_overwrites_witness :
  setTimeoutHandle (setTimeoutHandle initialState "tick" (JsNumber 1)) "tock" (JsNumber 2)
  = setTimeoutHandle (setTimeoutHandle initialState "tock" (JsNumber 2)) "tick" (JsNumber 1).
Proof.
  refine (proj2 (proj2 (setTimeoutHandle_overwrites initialState "tick" "tock"
                          (JsNumber 1) (JsNumber 2)) _)).
  discriminate.
Defined.

Lemma castMemberChanged_existing_entry_witness :
  ∃ state',
    castMemberChanged one_library
      {| cmc_memberRef := (1, 4); cmc_snapshot := {[ "type" := JsString "bitmap" ]} |}
    = Normal state'
    ∧ member_entry state' 1 4
      = Some (<["snapshot" := JsObject {[ "type" := JsString "bitmap" ]}]>
                {[ "name" := JsString "ball" ]}).
Proof.
  refine (castMemberChanged_existing_entry one_library
            {| cmc_memberRef := (1, 4); cmc_snapshot := {[ "type" := JsString "bitmap" ]} |}
            {[ "name" := JsString "ball" ]} _).
  by vm_compute.
Defined.
